(** * designate: the v2 recordsets controller

    A shallow embedding of [designate/api/v2/controllers/recordsets.py]
    (class [RecordSetsController]) and the properties of its five
    operations: listing with the data filter, the guards on create, update
    and delete, and the mapping of the backend status to the HTTP status.

    The controller talks to the central service ([self.central_api]); each
    such call is a node of the program tree below, so that the calls an
    operation makes, and their order, can be read off its run. *)

From Stdlib Require Import ZArith DecimalString.
From stdpp Require Import gmap strings list fin_maps.

Local Open Scope Z_scope.
Set Warnings "-register-all".

(** ** Values *)

(** Python values that cross the HTTP boundary: request bodies, rendered
    resources and header values. A dict keeps its items in order. *)
Inductive json :=
| JNull
| JBool (b : bool)
| JInt (z : Z)
| JStr (s : string)
| JList (l : list json)
| JDict (d : list (string * json)).

(** The exceptions the controller raises or lets through. *)
Inductive exn :=
| NotFound (msg : string)
| BadRequest (msg : string)
| InvalidUUID (name arg : string)
| InvalidSortKey (msg : string)
| InvalidSortDir (msg : string)
| InvalidLimit (msg : string)
| InvalidObject (msg : string)
| KeyError (key : string)
| BackendFailure (msg : string).

Inductive result (A : Type) :=
| Ok (a : A)
| Err (e : exn).
Arguments Ok {A} a.
Arguments Err {A} e.

Definition result_bind {A B} (f : A -> result B) (r : result A) : result B :=
  match r with
  | Ok a => f a
  | Err e => Err e
  end.

#[export] Instance result_ret : MRet result := @Ok.
#[export] Instance result_mbind : MBind result := @result_bind.

(** The validation class of section 7 of the specification: malformed
    identifier, unknown sort key, bad paging value, invalid body. *)
Definition is_validation_error (e : exn) : bool :=
  match e with
  | InvalidUUID _ _ | InvalidSortKey _ | InvalidSortDir _
  | InvalidLimit _ | InvalidObject _ => true
  | _ => false
  end.

(** ** Data model *)

(** [request.environ['context']]: the controller reads
    [edit_managed_records]; the rest of the caller's identity is opaque to
    it and only handed on to the central service. *)
Record Context := {
  identity : string;
  edit_managed_records : bool
}.

Record Zone := {
  zone_id_of : string;
  zone_name : string
}.

Record RecordSet := {
  rs_id : string;
  rs_domain_id : string;
  rs_name : string;
  rs_type : string;
  rs_ttl : option Z;
  rs_records : list string;
  rs_managed : bool;
  rs_status : string
}.

Record Record_ := {
  record_id : string;
  recordset_id : string;
  record_domain_id : string;
  record_data : string
}.

(** [RecordSet()]: a fresh object, no field set. *)
Definition RecordSet_new : RecordSet :=
  {| rs_id := ""; rs_domain_id := ""; rs_name := ""; rs_type := "";
     rs_ttl := None; rs_records := []; rs_managed := false;
     rs_status := "" |}.

(** [pecan.request] and [pecan.response], passed explicitly. *)
Record Request := {
  environ_context : Context;
  body_dict : json
}.

Record Response := {
  status_int : Z;
  headers : gmap string json
}.

Definition set_status_int (n : Z) (r : Response) : Response :=
  {| status_int := n; headers := headers r |}.

Definition set_header (k : string) (v : json) (r : Response) : Response :=
  {| status_int := status_int r; headers := <[k := v]> (headers r) |}.

(** [d[k]] on a Python value: [KeyError] when the key is missing (and, to
    keep one exception, also when [d] is no dict). *)
Fixpoint assoc_get (k : string) (d : list (string * json)) : option json :=
  match d with
  | [] => None
  | (k', v) :: d' => if String.eqb k k' then Some v else assoc_get k d'
  end.

Definition getitem (k : string) (v : json) : result json :=
  match v with
  | JDict d =>
      match assoc_get k d with
      | Some x => Ok x
      | None => Err (KeyError k)
      end
  | _ => Err (KeyError k)
  end.

(** ** Calls to the central service *)

Inductive call :=
| GetDomain (context : Context) (zone_id : string)
| GetRecordset (context : Context) (zone_id recordset_id : string)
| FindRecordsets (context : Context) (criterion : gmap string string)
    (marker : option string) (limit : N) (sort_key : option string)
    (sort_dir : string)
| FindRecords (context : Context) (criterion : gmap string string)
| CreateRecordset (context : Context) (zone_id : string) (recordset : RecordSet)
| UpdateRecordset (context : Context) (recordset : RecordSet)
| DeleteRecordset (context : Context) (zone_id recordset_id : string).

Definition resp (c : call) : Type :=
  match c with
  | GetDomain _ _ => Zone
  | GetRecordset _ _ _ => RecordSet
  | FindRecordsets _ _ _ _ _ _ => list RecordSet
  | FindRecords _ _ => list Record_
  | CreateRecordset _ _ _ => RecordSet
  | UpdateRecordset _ _ => RecordSet
  | DeleteRecordset _ _ _ => RecordSet
  end.

Definition is_get_domain (c : call) : bool :=
  match c with GetDomain _ _ => true | _ => false end.

(** A query on recordsets or on records. *)
Definition is_query (c : call) : bool :=
  match c with
  | FindRecordsets _ _ _ _ _ _ | FindRecords _ _ => true
  | _ => false
  end.

(** A call that changes what the central service stores. *)
Definition is_mutation (c : call) : bool :=
  match c with
  | CreateRecordset _ _ _ | UpdateRecordset _ _ | DeleteRecordset _ _ _ => true
  | _ => false
  end.

(** ** Controller programs *)

(** A controller method is a tree: it returns, raises, or calls the
    central service and goes on with the answer. *)
Inductive prog (A : Type) :=
| Ret (a : A)
| Raise (e : exn)
| Call (c : call) (k : resp c -> prog A).
Arguments Ret {A} a.
Arguments Raise {A} e.
Arguments Call {A} c k.

Fixpoint prog_bind {A B} (f : A -> prog B) (p : prog A) : prog B :=
  match p with
  | Ret a => f a
  | Raise e => Raise e
  | Call c k => Call c (fun x => prog_bind f (k x))
  end.

#[export] Instance prog_ret : MRet prog := @Ret.
#[export] Instance prog_mbind : MBind prog := @prog_bind.

(** A pure helper that may raise. *)
Definition lift {A} (r : result A) : prog A :=
  match r with
  | Ok a => Ret a
  | Err e => Raise e
  end.

Definition central_api (c : call) : prog (resp c) := Call c Ret.

(** ** The central service and runs against it *)

(** The interface of section 6; every operation may fail and may change
    the state [S] of the service. *)
Record CentralAPI (S : Type) := {
  get_domain : Context -> string -> S -> result Zone * S;
  get_recordset : Context -> string -> string -> S -> result RecordSet * S;
  find_recordsets : Context -> gmap string string -> option string -> N ->
                    option string -> string -> S -> result (list RecordSet) * S;
  find_records : Context -> gmap string string -> S -> result (list Record_) * S;
  create_recordset : Context -> string -> RecordSet -> S -> result RecordSet * S;
  update_recordset : Context -> RecordSet -> S -> result RecordSet * S;
  delete_recordset : Context -> string -> string -> S -> result RecordSet * S
}.
Arguments get_domain {S} _ _ _ _.
Arguments get_recordset {S} _ _ _ _ _.
Arguments find_recordsets {S} _ _ _ _ _ _ _ _.
Arguments find_records {S} _ _ _ _.
Arguments create_recordset {S} _ _ _ _ _.
Arguments update_recordset {S} _ _ _ _.
Arguments delete_recordset {S} _ _ _ _ _.

Definition dispatch {S} (api : CentralAPI S) (c : call) : S -> result (resp c) * S :=
  match c with
  | GetDomain ctx z => get_domain api ctx z
  | GetRecordset ctx z r => get_recordset api ctx z r
  | FindRecordsets ctx cr m l sk sd => find_recordsets api ctx cr m l sk sd
  | FindRecords ctx cr => find_records api ctx cr
  | CreateRecordset ctx z rs => create_recordset api ctx z rs
  | UpdateRecordset ctx rs => update_recordset api ctx rs
  | DeleteRecordset ctx z r => delete_recordset api ctx z r
  end.

(** What a run leaves behind: the value or the exception, the state of the
    service, and the calls made, oldest first. *)
Record Run (S A : Type) := {
  outcome : result A;
  final : S;
  trace : list call
}.
Arguments outcome {S A} _.
Arguments final {S A} _.
Arguments trace {S A} _.

Definition logged {S A} (c : call) (r : Run S A) : Run S A :=
  {| outcome := outcome r; final := final r; trace := c :: trace r |}.

Fixpoint run {S A} (api : CentralAPI S) (p : prog A) (s : S) : Run S A :=
  match p with
  | Ret a => {| outcome := Ok a; final := s; trace := [] |}
  | Raise e => {| outcome := Err e; final := s; trace := [] |}
  | Call c k =>
      match dispatch api c s with
      | (Ok x, s') => logged c (run api (k x) s')
      | (Err e, s') => {| outcome := Err e; final := s'; trace := [c] |}
      end
  end.

(** ** Helpers of the controller *)

(** Python truthiness of [criterion.pop('data', None)]: [None] and the
    empty string are false. *)
Definition truthy (v : option string) : bool :=
  match v with
  | Some s => negb (String.eqb s "")
  | None => false
  end.

Definition parse_decimal (s : string) : option N :=
  N.of_uint <$> NilEmpty.uint_of_string s.

(** The paging values handed to [find_recordsets]. *)
Record Paging := {
  marker : option string;
  limit : N;
  sort_key : option string;
  sort_dir : string
}.

Definition paging_keys : list string := ["marker"; "limit"; "sort_key"; "sort_dir"].

(** *** designate.utils *)
Module utils.
Section Utils.

(** The UUID syntax check and the page sizes configured for the API. *)
Variable is_uuid_like : string -> bool.
Variables default_limit max_limit : N.

(** Modelled from the spec: [utils.validate_uuid], the decorator on
    every method, is not in the controller's file. Section 7 puts a
    malformed identifier in the validation class; the named arguments
    are checked in the order given, before the method's body runs. *)
Definition validate_uuid {A} (check : list (string * string)) (f : prog A) : prog A :=
  match List.find (fun na => negb (is_uuid_like na.2)) check with
  | Some na => Raise (InvalidUUID na.1 na.2)
  | None => f
  end.

(** Modelled from the spec: [utils.get_paging_params] is not in the
    controller's file. Section 4.1: [marker] is optional; [limit] is a
    positive integer bounded by the configured maximum, the default page
    size when absent; [sort_key] must be one of [sort_keys]; [sort_dir]
    is [asc] or [desc], [asc] when absent; each violation is a
    validation failure. The paging keys are taken out of [params], which
    the caller goes on to read as filters. *)
Definition get_paging_params (params : gmap string string) (sort_keys : list string)
  : result (Paging * gmap string string) :=
  limit ←
    match params !! "limit" with
    | None => Ok default_limit
    | Some l =>
        match parse_decimal l with
        | Some n =>
            if ((0 <? n) && (n <=? max_limit))%N then Ok n else Err (InvalidLimit l)
        | None => Err (InvalidLimit l)
        end
    end;
  sort_dir ←
    match params !! "sort_dir" with
    | None => Ok "asc"
    | Some d =>
        if bool_decide (d ∈ ["asc"; "desc"]) then Ok d else Err (InvalidSortDir d)
    end;
  sort_key ←
    match params !! "sort_key" with
    | None => Ok None
    | Some k =>
        if bool_decide (k ∈ sort_keys) then Ok (Some k) else Err (InvalidSortKey k)
    end;
  Ok ({| marker := params !! "marker"; limit := limit;
         sort_key := sort_key; sort_dir := sort_dir |},
      foldr delete params paging_keys).

End Utils.
End utils.

(** *** designate.api.v2.controllers.rest *)
Module rest.

(** Modelled from the spec: [RestController._apply_filter_params] is not
    in the controller's file. Section 4.1: equality filters restricted
    to the allow-list, any other parameter is a [BadRequest]; the values
    are passed through unmodified. *)
Definition _apply_filter_params (params : gmap string string)
    (accepted_filters : list string) (criterion : gmap string string)
  : result (gmap string string) :=
  if bool_decide (dom params ⊆ list_to_set (C := gset string) accepted_filters)
  then Ok (params ∪ criterion)
  else Err (BadRequest "Invalid filters").

End rest.

(** ** RecordSetsController *)
Module RecordSetsController.
Section Controller.

(** Configuration and collaborators that live outside the controller's
    file: the UUID syntax check, the page sizes of the API, the adapter
    between wire format and objects ([DesignateAdapter.parse] and
    [render]), and the objects' own validation. *)
Variable is_uuid_like : string -> bool.
Variables default_limit max_limit : N.
Variable parse : json -> RecordSet -> result RecordSet.
Variable validate : RecordSet -> result unit.
Variable render : Request -> RecordSet -> json.
Variable render_list : Request -> list RecordSet -> json.

Definition SORT_KEYS : list string :=
  ["created_at"; "id"; "updated_at"; "domain_id"; "tenant_id";
   "name"; "type"; "ttl"; "records"].

(** Get RecordSet *)
Definition get_one (request : Request) (zone_id recordset_id : string) : prog json :=
  utils.validate_uuid is_uuid_like [("zone_id", zone_id); ("recordset_id", recordset_id)] (
    let context := environ_context request in
    recordset ← central_api (GetRecordset context zone_id recordset_id);
    Ret (render request recordset)).

(** The loop of [get_all] that keeps the recordsets whose id is in the
    set, appending to a fresh list in the order met. *)
Definition keep_with_data (recordsets_with_data : gset string)
    (recordsets : list RecordSet) : list RecordSet :=
  foldl (fun new_rsets recordset =>
           if bool_decide (rs_id recordset ∈ recordsets_with_data)
           then new_rsets ++ [recordset]
           else new_rsets)
        [] recordsets.

(** List RecordSets *)
Definition get_all (request : Request) (zone_id : string)
    (params : gmap string string) : prog json :=
  utils.validate_uuid is_uuid_like [("zone_id", zone_id)] (
    let context := environ_context request in
    (* the domain must exist, else deleted recordsets could be returned
       instead of a domain not found *)
    _ ← central_api (GetDomain context zone_id);
    (* the pagination params *)
    '(paging, params) ← lift (utils.get_paging_params default_limit max_limit params SORT_KEYS);
    (* any filter params *)
    let accepted_filters := ["name"; "type"; "ttl"; "data"] in
    criterion ← lift (rest._apply_filter_params params accepted_filters ∅);
    let criterion := <["domain_id" := zone_id]> criterion in
    (* data is filtered separately, through the records *)
    let recordsets_with_data : gset string := ∅ in
    let data := criterion !! "data" in
    let criterion := delete "data" criterion in
    recordsets ← central_api
      (FindRecordsets context criterion (marker paging) (limit paging)
         (sort_key paging) (sort_dir paging));
    recordsets ←
      (if truthy data then
         records ← central_api
           (FindRecords context
              (<["data" := default "" data]> (<["domain_id" := zone_id]> ∅)));
         let recordsets_with_data :=
           recordsets_with_data ∪ list_to_set (recordset_id <$> records) in
         Ret (keep_with_data recordsets_with_data recordsets)
       else Ret recordsets);
    Ret (render_list request recordsets)).

(** Create RecordSet *)
Definition post_all (request : Request) (response : Response) (zone_id : string)
  : prog (Response * json) :=
  utils.validate_uuid is_uuid_like [("zone_id", zone_id)] (
    let context := environ_context request in
    let body := body_dict request in
    recordset ← lift (parse body RecordSet_new);
    _ ← lift (validate recordset);
    (* SOA recordsets cannot be created manually *)
    if String.eqb (rs_type recordset) "SOA" then
      Raise (BadRequest "Creating a SOA recordset is not allowed")
    else
      recordset ← central_api (CreateRecordset context zone_id recordset);
      let response :=
        if String.eqb (rs_status recordset) "PENDING"
        then set_status_int 202 response
        else set_status_int 201 response in
      let recordset := render request recordset in
      links ← lift (getitem "links" recordset);
      self ← lift (getitem "self" links);
      let response := set_header "Location" self response in
      Ret (response, recordset)).

(** Update RecordSet *)
Definition put_one (request : Request) (response : Response)
    (zone_id recordset_id : string) : prog (Response * json) :=
  utils.validate_uuid is_uuid_like [("zone_id", zone_id); ("recordset_id", recordset_id)] (
    let context := environ_context request in
    let body := body_dict request in
    (* the existing recordset *)
    recordset ← central_api (GetRecordset context zone_id recordset_id);
    if rs_managed recordset && negb (edit_managed_records context) then
      Raise (BadRequest "Managed records may not be updated")
    else
    (* SOA recordsets cannot be updated manually *)
    if String.eqb (rs_type recordset) "SOA" then
      Raise (BadRequest "Updating SOA recordsets is not allowed")
    else
    (* NS recordsets at the zone root cannot be manually updated *)
    _ ← (if String.eqb (rs_type recordset) "NS" then
           zone ← central_api (GetDomain context zone_id);
           if String.eqb (rs_name recordset) (zone_name zone) then
             Raise (BadRequest "Updating a root zone NS record is not allowed")
           else Ret tt
         else Ret tt);
    recordset ← lift (parse body recordset);
    _ ← lift (validate recordset);
    (* persist the resource *)
    recordset ← central_api (UpdateRecordset context recordset);
    let response :=
      if String.eqb (rs_status recordset) "PENDING"
      then set_status_int 202 response
      else set_status_int 200 response in
    Ret (response, render request recordset)).

(** Delete RecordSet *)
Definition delete_one (request : Request) (response : Response)
    (zone_id recordset_id : string) : prog (Response * json) :=
  utils.validate_uuid is_uuid_like [("zone_id", zone_id); ("recordset_id", recordset_id)] (
    let context := environ_context request in
    (* the existing recordset *)
    recordset ← central_api (GetRecordset context zone_id recordset_id);
    if String.eqb (rs_type recordset) "SOA" then
      Raise (BadRequest "Deleting a SOA recordset is not allowed")
    else
      recordset ← central_api (DeleteRecordset context zone_id recordset_id);
      let response := set_status_int 202 response in
      Ret (response, render request recordset)).

End Controller.
End RecordSetsController.

(** ** A central service held in memory

    A small implementation of the interface, used to run the controller on
    concrete requests: zones, recordsets and records in lists; a change is
    answered with the status the service is configured to report. *)
Module InMemory.

Record Store := {
  zones : list Zone;
  recordsets : list RecordSet;
  records : list Record_
}.

Definition field_is (criterion : gmap string string) (k v : string) : bool :=
  match criterion !! k with
  | Some x => String.eqb x v
  | None => true
  end.

Definition recordset_matches (criterion : gmap string string) (rs : RecordSet) : bool :=
  field_is criterion "domain_id" (rs_domain_id rs)
  && field_is criterion "name" (rs_name rs)
  && field_is criterion "type" (rs_type rs)
  && match criterion !! "ttl" with
     | Some t =>
         match parse_decimal t, rs_ttl rs with
         | Some n, Some z => Z.eqb (Z.of_N n) z
         | _, _ => false
         end
     | None => true
     end.

Definition record_matches (criterion : gmap string string) (r : Record_) : bool :=
  field_is criterion "domain_id" (record_domain_id r)
  && field_is criterion "data" (record_data r).

Definition is_recordset (zone_id recordset_id : string) (rs : RecordSet) : bool :=
  String.eqb (rs_id rs) recordset_id && String.eqb (rs_domain_id rs) zone_id.

Definition with_status (st : string) (rs : RecordSet) : RecordSet :=
  {| rs_id := rs_id rs; rs_domain_id := rs_domain_id rs; rs_name := rs_name rs;
     rs_type := rs_type rs; rs_ttl := rs_ttl rs; rs_records := rs_records rs;
     rs_managed := rs_managed rs; rs_status := st |}.

Definition stored (zone_id new_id st : string) (rs : RecordSet) : RecordSet :=
  {| rs_id := new_id; rs_domain_id := zone_id; rs_name := rs_name rs;
     rs_type := rs_type rs; rs_ttl := rs_ttl rs; rs_records := rs_records rs;
     rs_managed := rs_managed rs; rs_status := st |}.

Definition put_recordsets (l : list RecordSet) (s : Store) : Store :=
  {| zones := zones s; recordsets := l; records := records s |}.

(** [new_id] is the identifier given to the next recordset created,
    [st] the status reported for a change. *)
Definition service (new_id st : string) : CentralAPI Store :=
  {| get_domain := fun _ zone_id s =>
       match List.find (fun z => String.eqb (zone_id_of z) zone_id) (zones s) with
       | Some z => (Ok z, s)
       | None => (Err (NotFound "domain_not_found"), s)
       end;
     get_recordset := fun _ zone_id recordset_id s =>
       match List.find (is_recordset zone_id recordset_id) (recordsets s) with
       | Some rs => (Ok rs, s)
       | None => (Err (NotFound "recordset_not_found"), s)
       end;
     find_recordsets := fun _ criterion _ limit _ _ s =>
       (Ok (take (N.to_nat limit)
              (List.filter (recordset_matches criterion) (recordsets s))), s);
     find_records := fun _ criterion s =>
       (Ok (List.filter (record_matches criterion) (records s)), s);
     create_recordset := fun _ zone_id rs s =>
       let rs' := stored zone_id new_id st rs in
       (Ok rs', put_recordsets (recordsets s ++ [rs']) s);
     update_recordset := fun _ rs s =>
       let rs' := with_status st rs in
       (Ok rs',
        put_recordsets
          (List.map (fun x => if String.eqb (rs_id x) (rs_id rs) then rs' else x)
             (recordsets s)) s);
     delete_recordset := fun _ zone_id recordset_id s =>
       match List.find (is_recordset zone_id recordset_id) (recordsets s) with
       | Some rs =>
           (Ok (with_status st rs),
            put_recordsets
              (List.filter (fun x => negb (is_recordset zone_id recordset_id x))
                 (recordsets s)) s)
       | None => (Err (NotFound "recordset_not_found"), s)
       end |}.

(** The adapter and the checks around it. *)
Definition uuid_like (s : string) : bool := Nat.eqb (String.length s) 36.

Definition str_field (k : string) (body : json) (old : string) : string :=
  match getitem k body with
  | Ok (JStr v) => v
  | _ => old
  end.

Definition parse (body : json) (rs : RecordSet) : result RecordSet :=
  match body with
  | JDict _ =>
      Ok {| rs_id := rs_id rs; rs_domain_id := rs_domain_id rs;
            rs_name := str_field "name" body (rs_name rs);
            rs_type := str_field "type" body (rs_type rs);
            rs_ttl := match getitem "ttl" body with
                      | Ok (JInt z) => Some z
                      | _ => rs_ttl rs
                      end;
            rs_records := match getitem "records" body with
                          | Ok (JList l) =>
                              omap (fun v => match v with JStr x => Some x | _ => None end) l
                          | _ => rs_records rs
                          end;
            rs_managed := rs_managed rs; rs_status := rs_status rs |}
  | _ => Err (InvalidObject "body is not an object")
  end.

Definition validate (rs : RecordSet) : result unit :=
  if String.eqb (rs_name rs) "" || String.eqb (rs_type rs) ""
  then Err (InvalidObject "name and type are required")
  else Ok tt.

Definition self_link (rs : RecordSet) : string :=
  "/v2/zones/" +:+ rs_domain_id rs +:+ "/recordsets/" +:+ rs_id rs.

Definition render (_ : Request) (rs : RecordSet) : json :=
  JDict [("id", JStr (rs_id rs)); ("zone_id", JStr (rs_domain_id rs));
         ("name", JStr (rs_name rs)); ("type", JStr (rs_type rs));
         ("records", JList (JStr <$> rs_records rs));
         ("status", JStr (rs_status rs));
         ("links", JDict [("self", JStr (self_link rs))])].

Definition render_list (request : Request) (l : list RecordSet) : json :=
  JDict [("recordsets", JList (render request <$> l))].

(** Sample data: one zone with its SOA set (managed) and its root NS set,
    one address set with one record, and one managed MX set. *)
Definition Z1 : string := "11111111-1111-1111-1111-111111111111".
Definition R_SOA : string := "22222222-2222-2222-2222-222222222222".
Definition R_NS : string := "33333333-3333-3333-3333-333333333333".
Definition R_A : string := "44444444-4444-4444-4444-444444444444".
Definition R_NEW : string := "55555555-5555-5555-5555-555555555555".
Definition R_MX : string := "77777777-7777-7777-7777-777777777777".

Definition soa_set : RecordSet :=
  {| rs_id := R_SOA; rs_domain_id := Z1; rs_name := "example.com.";
     rs_type := "SOA"; rs_ttl := Some 3600;
     rs_records := ["ns1.example.com. admin.example.com. 1 3600 600 86400 3600"];
     rs_managed := true; rs_status := "ACTIVE" |}.

Definition ns_set : RecordSet :=
  {| rs_id := R_NS; rs_domain_id := Z1; rs_name := "example.com.";
     rs_type := "NS"; rs_ttl := Some 3600; rs_records := ["ns1.example.com."];
     rs_managed := false; rs_status := "ACTIVE" |}.

Definition a_set : RecordSet :=
  {| rs_id := R_A; rs_domain_id := Z1; rs_name := "www.example.com.";
     rs_type := "A"; rs_ttl := Some 300; rs_records := ["1.2.3.4"];
     rs_managed := false; rs_status := "ACTIVE" |}.

Definition mx_set : RecordSet :=
  {| rs_id := R_MX; rs_domain_id := Z1; rs_name := "example.com.";
     rs_type := "MX"; rs_ttl := Some 3600; rs_records := ["10 mail.example.com."];
     rs_managed := true; rs_status := "ACTIVE" |}.

Definition example_com : Zone := {| zone_id_of := Z1; zone_name := "example.com." |}.

Definition a_record : Record_ :=
  {| record_id := "66666666-6666-6666-6666-666666666666";
     recordset_id := R_A; record_domain_id := Z1; record_data := "1.2.3.4" |}.

Definition store : Store :=
  {| zones := [example_com];
     recordsets := [soa_set; ns_set; a_set; mx_set];
     records := [a_record] |}.

Definition user : Context := {| identity := "alice"; edit_managed_records := false |}.
Definition admin : Context := {| identity := "root"; edit_managed_records := true |}.

Definition req (context : Context) (body : json) : Request :=
  {| environ_context := context; body_dict := body |}.

Definition response0 : Response := {| status_int := 200; headers := ∅ |}.

Definition pending : CentralAPI Store := service R_NEW "PENDING".
Definition synchronous : CentralAPI Store := service R_NEW "ACTIVE".

(** The controller against this service. *)
Definition get_all := RecordSetsController.get_all uuid_like 20 1000 render_list.
Definition post_all := RecordSetsController.post_all uuid_like parse validate render.
Definition put_one := RecordSetsController.put_one uuid_like parse validate render.
Definition delete_one := RecordSetsController.delete_one uuid_like render.

End InMemory.

(** ** Properties of programs and runs *)

Section RunLemmas.

Context {S : Type} (api : CentralAPI S).

Lemma run_call_ok {A} (c : call) (k : resp c -> prog A) (s s' : S) (x : resp c) :
  dispatch api c s = (Ok x, s') ->
  run api (Call c k) s = logged c (run api (k x) s').
Proof. intros H. cbn [run]. now rewrite H. Qed.

Lemma run_call_err {A} (c : call) (k : resp c -> prog A) (s s' : S) (e : exn) :
  dispatch api c s = (Err e, s') ->
  run api (Call c k) s = {| outcome := Err e; final := s'; trace := [c] |}.
Proof. intros H. cbn [run]. now rewrite H. Qed.

(** A run of [p ≫= f] is the run of [p] followed, when [p] returns, by
    the run of [f] on its value. *)
Lemma run_bind {A B} (p : prog A) (f : A -> prog B) (s : S) :
  run api (p ≫= f) s =
  match outcome (run api p s) with
  | Ok a =>
      let r := run api (f a) (final (run api p s)) in
      {| outcome := outcome r; final := final r;
         trace := trace (run api p s) ++ trace r |}
  | Err e =>
      {| outcome := Err e; final := final (run api p s);
         trace := trace (run api p s) |}
  end.
Proof.
  revert s. induction p as [a | e | c k IH]; intros s.
  - cbn. now destruct (run api (f a) s).
  - reflexivity.
  - change (Call c k ≫= f) with (Call c (fun x => k x ≫= f)).
    cbn [run]. destruct (dispatch api c s) as [[x | e] s']; [| reflexivity].
    rewrite IH. cbn. now destruct (outcome (run api (k x) s')).
Qed.

End RunLemmas.

(** A property of every call of a trace given call by call: the calls that
    cannot be of the kind asked about are closed, the others are left. *)
Ltac each_call :=
  cbn [logged trace];
  repeat first
    [ apply Forall_nil_2
    | apply Forall_cons_2; [try (intros [=]; fail) |] ].

(** One step of a program: the binds, and a call to the service. *)
Ltac step :=
  cbn [mbind prog_mbind prog_bind mret prog_ret lift central_api run dispatch].

Section Properties.

Context {S : Type} (api : CentralAPI S).
Variable is_uuid_like : string -> bool.
Variables default_limit max_limit : N.
Variable parse : json -> RecordSet -> result RecordSet.
Variable validate : RecordSet -> result unit.
Variable render : Request -> RecordSet -> json.
Variable render_list : Request -> list RecordSet -> json.

Local Abbreviation validate_uuid := (utils.validate_uuid is_uuid_like).
Local Abbreviation get_paging_params :=
  (utils.get_paging_params default_limit max_limit).
Local Abbreviation _apply_filter_params := rest._apply_filter_params.
Local Abbreviation SORT_KEYS := RecordSetsController.SORT_KEYS.
Local Abbreviation keep_with_data := RecordSetsController.keep_with_data.
Local Abbreviation get_all :=
  (RecordSetsController.get_all is_uuid_like default_limit max_limit render_list).
Local Abbreviation post_all :=
  (RecordSetsController.post_all is_uuid_like parse validate render).
Local Abbreviation put_one :=
  (RecordSetsController.put_one is_uuid_like parse validate render).
Local Abbreviation delete_one :=
  (RecordSetsController.delete_one is_uuid_like render).

Lemma validate_uuid_1 {A} (n a : string) (f : prog A) :
  is_uuid_like a = true -> validate_uuid [(n, a)] f = f.
Proof. intros H. unfold utils.validate_uuid. cbn. now rewrite H. Qed.

Lemma validate_uuid_2 {A} (n1 a1 n2 a2 : string) (f : prog A) :
  is_uuid_like a1 = true -> is_uuid_like a2 = true ->
  validate_uuid [(n1, a1); (n2, a2)] f = f.
Proof. intros H1 H2. unfold utils.validate_uuid. cbn. now rewrite H1, H2. Qed.

(** C4: a create whose parsed and validated body has type SOA fails with
    BadRequest, and no call reaches the central service: nothing is
    created and its state is untouched. *)
Theorem create_soa_rejected (request : Request) (response : Response)
    (zone_id : string) (recordset : RecordSet) (s : S) :
  is_uuid_like zone_id = true ->
  parse (body_dict request) RecordSet_new = Ok recordset ->
  validate recordset = Ok tt ->
  rs_type recordset = "SOA" ->
  run api (post_all request response zone_id) s =
    {| outcome := Err (BadRequest "Creating a SOA recordset is not allowed");
       final := s; trace := [] |}.
Proof.
  intros Hz Hparse Hval Htype. unfold RecordSetsController.post_all.
  rewrite validate_uuid_1 by exact Hz.
  rewrite Hparse. cbn. rewrite Hval. cbn. now rewrite Htype.
Qed.

(** C6: a delete of a recordset whose stored type is SOA fails with
    BadRequest after the recordset was fetched; the delete call is never
    issued. *)
Theorem delete_soa_rejected (request : Request) (response : Response)
    (zone_id recordset_id : string) (recordset : RecordSet) (s s1 : S) :
  is_uuid_like zone_id = true ->
  is_uuid_like recordset_id = true ->
  get_recordset api (environ_context request) zone_id recordset_id s
    = (Ok recordset, s1) ->
  rs_type recordset = "SOA" ->
  run api (delete_one request response zone_id recordset_id) s =
    {| outcome := Err (BadRequest "Deleting a SOA recordset is not allowed");
       final := s1;
       trace := [GetRecordset (environ_context request) zone_id recordset_id] |}.
Proof.
  intros Hz Hr Hget Htype. unfold RecordSetsController.delete_one.
  rewrite validate_uuid_2 by assumption.
  cbn. rewrite Hget. cbn. now rewrite Htype.
Qed.

(** Every step of [put_one] up to the answer of [get_recordset]. *)
Lemma put_one_fetch_failed (request : Request) (response : Response)
    (zone_id recordset_id : string) (e : exn) (s s1 : S) :
  is_uuid_like zone_id = true ->
  is_uuid_like recordset_id = true ->
  get_recordset api (environ_context request) zone_id recordset_id s = (Err e, s1) ->
  run api (put_one request response zone_id recordset_id) s =
    {| outcome := Err e; final := s1;
       trace := [GetRecordset (environ_context request) zone_id recordset_id] |}.
Proof.
  intros Hz Hr Hget. unfold RecordSetsController.put_one.
  rewrite validate_uuid_2 by assumption. cbn. now rewrite Hget.
Qed.

(** The managed check comes first: it decides alone, whatever the type. *)
Lemma put_one_managed (request : Request) (response : Response)
    (zone_id recordset_id : string) (recordset : RecordSet) (s s1 : S) :
  is_uuid_like zone_id = true ->
  is_uuid_like recordset_id = true ->
  get_recordset api (environ_context request) zone_id recordset_id s
    = (Ok recordset, s1) ->
  rs_managed recordset = true ->
  edit_managed_records (environ_context request) = false ->
  run api (put_one request response zone_id recordset_id) s =
    {| outcome := Err (BadRequest "Managed records may not be updated");
       final := s1;
       trace := [GetRecordset (environ_context request) zone_id recordset_id] |}.
Proof.
  intros Hz Hr Hget Hm Hcap. unfold RecordSetsController.put_one.
  rewrite validate_uuid_2 by assumption.
  cbn. rewrite Hget. cbn. now rewrite Hm, Hcap.
Qed.

Lemma put_one_soa (request : Request) (response : Response)
    (zone_id recordset_id : string) (recordset : RecordSet) (s s1 : S) :
  is_uuid_like zone_id = true ->
  is_uuid_like recordset_id = true ->
  get_recordset api (environ_context request) zone_id recordset_id s
    = (Ok recordset, s1) ->
  rs_managed recordset && negb (edit_managed_records (environ_context request)) = false ->
  rs_type recordset = "SOA" ->
  run api (put_one request response zone_id recordset_id) s =
    {| outcome := Err (BadRequest "Updating SOA recordsets is not allowed");
       final := s1;
       trace := [GetRecordset (environ_context request) zone_id recordset_id] |}.
Proof.
  intros Hz Hr Hget Hm Ht. unfold RecordSetsController.put_one.
  rewrite validate_uuid_2 by assumption.
  cbn. rewrite Hget. cbn. now rewrite Hm, Ht.
Qed.

Lemma put_one_root_ns (request : Request) (response : Response)
    (zone_id recordset_id : string) (recordset : RecordSet) (zone : Zone)
    (s s1 s2 : S) :
  is_uuid_like zone_id = true ->
  is_uuid_like recordset_id = true ->
  get_recordset api (environ_context request) zone_id recordset_id s
    = (Ok recordset, s1) ->
  rs_managed recordset && negb (edit_managed_records (environ_context request)) = false ->
  rs_type recordset = "NS" ->
  get_domain api (environ_context request) zone_id s1 = (Ok zone, s2) ->
  rs_name recordset = zone_name zone ->
  run api (put_one request response zone_id recordset_id) s =
    {| outcome := Err (BadRequest "Updating a root zone NS record is not allowed");
       final := s2;
       trace := [GetRecordset (environ_context request) zone_id recordset_id;
                 GetDomain (environ_context request) zone_id] |}.
Proof.
  intros Hz Hr Hget Hm Ht Hzone Hname. unfold RecordSetsController.put_one.
  rewrite validate_uuid_2 by assumption.
  cbn. rewrite Hget. cbn. rewrite Hm, Ht. cbn. rewrite Hzone. cbn.
  rewrite Hname, String.eqb_refl. reflexivity.
Qed.

(** A recordset that is neither SOA nor NS, past the managed check: the
    body is overlaid, validated and sent to the central service. *)
Lemma put_one_persist (request : Request) (response : Response)
    (zone_id recordset_id : string) (recordset merged updated : RecordSet)
    (s s1 s2 : S) :
  is_uuid_like zone_id = true ->
  is_uuid_like recordset_id = true ->
  get_recordset api (environ_context request) zone_id recordset_id s
    = (Ok recordset, s1) ->
  rs_managed recordset && negb (edit_managed_records (environ_context request)) = false ->
  rs_type recordset <> "SOA" ->
  rs_type recordset <> "NS" ->
  parse (body_dict request) recordset = Ok merged ->
  validate merged = Ok tt ->
  update_recordset api (environ_context request) merged s1 = (Ok updated, s2) ->
  run api (put_one request response zone_id recordset_id) s =
    {| outcome :=
         Ok (if String.eqb (rs_status updated) "PENDING"
             then set_status_int 202 response
             else set_status_int 200 response,
             render request updated);
       final := s2;
       trace := [GetRecordset (environ_context request) zone_id recordset_id;
                 UpdateRecordset (environ_context request) merged] |}.
Proof.
  intros Hz Hr Hget Hm Hsoa Hns Hparse Hval Hupd. unfold RecordSetsController.put_one.
  rewrite validate_uuid_2 by assumption.
  apply String.eqb_neq in Hsoa, Hns.
  cbn. rewrite Hget. cbn. rewrite Hm, Hsoa, Hns. cbn.
  rewrite Hparse. cbn. rewrite Hval. cbn. rewrite Hupd. reflexivity.
Qed.

(** Unless the stored type is NS, an update never looks the zone up. *)
Lemma put_one_no_zone_lookup (request : Request) (response : Response)
    (zone_id recordset_id : string) (recordset : RecordSet) (s s1 : S) :
  is_uuid_like zone_id = true ->
  is_uuid_like recordset_id = true ->
  get_recordset api (environ_context request) zone_id recordset_id s
    = (Ok recordset, s1) ->
  rs_type recordset <> "NS" ->
  forall c, c ∈ trace (run api (put_one request response zone_id recordset_id) s) ->
            is_get_domain c = false.
Proof.
  intros Hz Hr Hget Hns c. unfold RecordSetsController.put_one.
  rewrite validate_uuid_2 by assumption.
  apply String.eqb_neq in Hns.
  cbn. rewrite Hget. cbn.
  destruct (rs_managed recordset && negb _); cbn.
  { intros ->%list_elem_of_singleton. reflexivity. }
  destruct (String.eqb (rs_type recordset) "SOA"); cbn.
  { intros ->%list_elem_of_singleton. reflexivity. }
  rewrite Hns. cbn.
  destruct (parse (body_dict request) recordset) as [merged | e]; cbn.
  2: { intros ->%list_elem_of_singleton. reflexivity. }
  destruct (validate merged) as [[] | e]; cbn.
  2: { intros ->%list_elem_of_singleton. reflexivity. }
  destruct (update_recordset api _ merged s1) as [[updated | e] s2]; cbn;
    intros Hc; repeat (apply elem_of_cons in Hc as [-> | Hc]; [reflexivity |]);
    now apply elem_of_nil in Hc.
Qed.

(** C3: an update of a recordset whose stored type is NS and whose stored
    name is the name of its zone fails with BadRequest whatever the body
    holds, and nothing is changed; the zone is looked up only when the
    stored type is NS. *)
Theorem update_root_ns_rejected (request : Request) (response : Response)
    (zone_id recordset_id : string) (recordset : RecordSet) (s s1 : S) :
  is_uuid_like zone_id = true ->
  is_uuid_like recordset_id = true ->
  get_recordset api (environ_context request) zone_id recordset_id s
    = (Ok recordset, s1) ->
  let r := run api (put_one request response zone_id recordset_id) s in
  (rs_type recordset = "NS" ->
   forall zone s2,
     get_domain api (environ_context request) zone_id s1 = (Ok zone, s2) ->
     rs_name recordset = zone_name zone ->
     (exists msg, outcome r = Err (BadRequest msg)) /\
     (forall c, c ∈ trace r -> is_mutation c = false))
  /\ (rs_type recordset <> "NS" ->
      forall c, c ∈ trace r -> is_get_domain c = false).
Proof.
  intros Hz Hr Hget r. split.
  - intros Ht zone s2 Hzone Hname. subst r.
    destruct (rs_managed recordset
              && negb (edit_managed_records (environ_context request))) eqn:Hm.
    + apply andb_true_iff in Hm as [Hm Hcap]. apply negb_true_iff in Hcap.
      rewrite (put_one_managed _ _ _ _ _ _ _ Hz Hr Hget Hm Hcap). cbn. split.
      * eauto.
      * intros c ->%list_elem_of_singleton. reflexivity.
    + rewrite (put_one_root_ns _ _ _ _ _ _ _ _ _ Hz Hr Hget Hm Ht Hzone Hname).
      cbn. split.
      * eauto.
      * intros c Hc.
        repeat (apply elem_of_cons in Hc as [-> | Hc]; [reflexivity |]).
        now apply elem_of_nil in Hc.
  - intros Hns. subst r. now apply put_one_no_zone_lookup with recordset s1.
Qed.

(** C5: an update of a recordset stored as managed fails with BadRequest
    when the caller's context lacks [edit_managed_records]; with the
    capability the same request gets past the managed check: it reaches the
    SOA check, the zone lookup of the root NS check, or, for any other
    type, the call that persists the update, whose answer it returns. *)
Theorem update_managed_guard (request : Request) (response : Response)
    (zone_id recordset_id : string) (recordset : RecordSet) (s s1 : S) :
  is_uuid_like zone_id = true ->
  is_uuid_like recordset_id = true ->
  get_recordset api (environ_context request) zone_id recordset_id s
    = (Ok recordset, s1) ->
  rs_managed recordset = true ->
  let context := environ_context request in
  let r := run api (put_one request response zone_id recordset_id) s in
  (edit_managed_records context = false ->
   r = {| outcome := Err (BadRequest "Managed records may not be updated");
          final := s1;
          trace := [GetRecordset context zone_id recordset_id] |})
  /\ (edit_managed_records context = true ->
      (rs_type recordset = "SOA" ->
       outcome r = Err (BadRequest "Updating SOA recordsets is not allowed"))
      /\ (rs_type recordset = "NS" ->
          GetDomain context zone_id ∈ trace r)
      /\ (rs_type recordset <> "SOA" -> rs_type recordset <> "NS" ->
          forall merged updated s2,
            parse (body_dict request) recordset = Ok merged ->
            validate merged = Ok tt ->
            update_recordset api context merged s1 = (Ok updated, s2) ->
            r = {| outcome :=
                     Ok (if String.eqb (rs_status updated) "PENDING"
                         then set_status_int 202 response
                         else set_status_int 200 response,
                         render request updated);
                   final := s2;
                   trace := [GetRecordset context zone_id recordset_id;
                             UpdateRecordset context merged] |})).
Proof.
  intros Hz Hr Hget Hm context r. split.
  - intros Hcap. now apply put_one_managed with recordset.
  - intros Hcap.
    assert (Hpass : rs_managed recordset && negb (edit_managed_records context) = false).
    { now rewrite Hcap, andb_false_r. }
    split; [| split].
    + intros Ht. subst r. now rewrite (put_one_soa _ _ _ _ _ _ _ Hz Hr Hget Hpass Ht).
    + intros Ht. subst r. unfold RecordSetsController.put_one.
      rewrite validate_uuid_2 by assumption.
      cbn. rewrite Hget. cbn. fold context. rewrite Hpass, Ht. cbn.
      apply elem_of_cons. right.
      destruct (get_domain api context zone_id s1) as [[zone | e] s2]; cbn.
      * apply elem_of_cons. now left.
      * apply elem_of_cons. now left.
    + intros Hsoa Hns merged updated s2 Hparse Hval Hupd.
      now apply put_one_persist with recordset s1.
Qed.

(** C10: the checks of an update run in the order managed, SOA, root NS.
    A managed recordset updated without the capability fails with the
    managed message whatever its type, before any zone lookup; only past
    that check does the SOA check answer, and only past both the root NS
    check. *)
Theorem update_guard_order (request : Request) (response : Response)
    (zone_id recordset_id : string) (recordset : RecordSet) (s s1 : S) :
  is_uuid_like zone_id = true ->
  is_uuid_like recordset_id = true ->
  get_recordset api (environ_context request) zone_id recordset_id s
    = (Ok recordset, s1) ->
  let context := environ_context request in
  let r := run api (put_one request response zone_id recordset_id) s in
  (rs_managed recordset = true -> edit_managed_records context = false ->
   r = {| outcome := Err (BadRequest "Managed records may not be updated");
          final := s1;
          trace := [GetRecordset context zone_id recordset_id] |})
  /\ (rs_managed recordset && negb (edit_managed_records context) = false ->
      rs_type recordset = "SOA" ->
      r = {| outcome := Err (BadRequest "Updating SOA recordsets is not allowed");
             final := s1;
             trace := [GetRecordset context zone_id recordset_id] |})
  /\ (rs_managed recordset && negb (edit_managed_records context) = false ->
      rs_type recordset = "NS" ->
      forall zone s2,
        get_domain api context zone_id s1 = (Ok zone, s2) ->
        rs_name recordset = zone_name zone ->
        r = {| outcome :=
                 Err (BadRequest "Updating a root zone NS record is not allowed");
               final := s2;
               trace := [GetRecordset context zone_id recordset_id;
                         GetDomain context zone_id] |}).
Proof.
  intros Hz Hr Hget context r. split; [| split].
  - intros Hm Hcap. now apply put_one_managed with recordset.
  - intros Hm Ht. now apply put_one_soa with recordset.
  - intros Hm Ht zone s2 Hzone Hname. now apply put_one_root_ns with recordset zone s1.
Qed.

(** C7: a create that succeeds answers 202 when the recordset returned by
    the central service has status PENDING and 201 otherwise; either way
    the Location header is the self link of the rendered resource, which
    is the body returned. *)
Theorem create_status_and_location (request : Request) (response resp : Response)
    (zone_id : string) (body : json) (s : S) :
  outcome (run api (post_all request response zone_id) s) = Ok (resp, body) ->
  exists recordset created s',
    parse (body_dict request) RecordSet_new = Ok recordset /\
    create_recordset api (environ_context request) zone_id recordset s
      = (Ok created, s') /\
    body = render request created /\
    status_int resp =
      (if String.eqb (rs_status created) "PENDING" then 202 else 201) /\
    exists links self,
      getitem "links" body = Ok links /\
      getitem "self" links = Ok self /\
      headers resp !! "Location" = Some self.
Proof.
  unfold RecordSetsController.post_all, utils.validate_uuid. cbn.
  destruct (is_uuid_like zone_id); cbn; [| discriminate].
  destruct (parse (body_dict request) RecordSet_new) as [recordset | e];
    cbn; [| discriminate].
  destruct (validate recordset) as [[] | e]; cbn; [| discriminate].
  destruct (String.eqb (rs_type recordset) "SOA"); cbn; [discriminate |].
  destruct (create_recordset api _ zone_id recordset s) as [[created | e] s'] eqn:Hc;
    cbn; [| discriminate].
  destruct (getitem "links" (render request created)) as [links | e] eqn:Hl;
    cbn; [| discriminate].
  destruct (getitem "self" links) as [self | e] eqn:Hs; cbn; [| discriminate].
  intros [= <- <-]. exists recordset, created, s'.
  repeat split; try assumption.
  - now destruct (String.eqb (rs_status created) "PENDING").
  - exists links, self. repeat split; try assumption.
    cbn. apply lookup_insert_eq.
Qed.

(** *** Listing *)

(** The loop of [get_all] is a filter: order and repetitions are those of
    the list it reads. *)
Lemma keep_with_data_filter (ids : gset string) (l : list RecordSet) :
  keep_with_data ids l = filter (fun rs => rs_id rs ∈ ids) l.
Proof.
  unfold RecordSetsController.keep_with_data.
  enough (H : forall acc,
             foldl (fun new_rsets recordset =>
                      if bool_decide (rs_id recordset ∈ ids)
                      then new_rsets ++ [recordset] else new_rsets) acc l
             = acc ++ filter (fun rs => rs_id rs ∈ ids) l) by apply (H []).
  induction l as [| rs l IH]; intros acc.
  - cbn. now rewrite app_nil_r.
  - rewrite filter_cons. cbn [foldl]. rewrite IH. case_bool_decide.
    + rewrite decide_True by assumption. now rewrite <- app_assoc.
    + now rewrite decide_False by assumption.
Qed.

Lemma paging_keys_kept (params : gmap string string) (k : string) :
  k ∉ paging_keys -> foldr delete params paging_keys !! k = params !! k.
Proof.
  intros Hk. unfold paging_keys in *. cbn.
  rewrite !lookup_delete_ne; [reflexivity | ..];
    intros E; apply Hk; rewrite <- E; repeat constructor.
Qed.

Lemma get_paging_params_rest (params : gmap string string) (keys : list string)
    (paging : Paging) (rest : gmap string string) :
  get_paging_params params keys = Ok (paging, rest) ->
  rest = foldr delete params paging_keys.
Proof.
  unfold utils.get_paging_params, mbind, result_mbind.
  repeat match goal with
         | |- context [result_bind _ ?r] => destruct r; cbn; try discriminate
         end.
  now intros [= _ <-].
Qed.

Lemma get_paging_params_bad_key (params : gmap string string) (keys : list string)
    (k : string) :
  params !! "sort_key" = Some k -> k ∉ keys ->
  exists e, get_paging_params params keys = Err e /\ is_validation_error e = true.
Proof.
  intros Hk Hnot. unfold utils.get_paging_params, mbind, result_mbind.
  rewrite Hk.
  rewrite bool_decide_eq_false_2 by assumption.
  destruct (params !! "limit") as [l |]; cbn.
  - destruct (parse_decimal l) as [n |]; cbn; [| eauto].
    destruct ((0 <? n)%N && (n <=? max_limit)%N); cbn; [| eauto].
    destruct (params !! "sort_dir") as [d |]; cbn; [| eauto].
    case_bool_decide; cbn; eauto.
  - destruct (params !! "sort_dir") as [d |]; cbn; [| eauto].
    case_bool_decide; cbn; eauto.
Qed.

Lemma apply_filter_params_ok (params criterion : gmap string string)
    (accepted : list string) :
  _apply_filter_params params accepted ∅ = Ok criterion -> criterion = params.
Proof.
  unfold rest._apply_filter_params. case_bool_decide; [| discriminate].
  intros [= <-]. apply map_union_empty.
Qed.

(** The data filter of the criterion is the [data] parameter as given. *)
Lemma criterion_data (params rest criterion : gmap string string) (paging : Paging) :
  get_paging_params params SORT_KEYS = Ok (paging, rest) ->
  _apply_filter_params rest ["name"; "type"; "ttl"; "data"] ∅ = Ok criterion ->
  criterion !! "data" = params !! "data".
Proof.
  intros Hpaging Hfilter.
  rewrite (apply_filter_params_ok _ _ _ Hfilter).
  rewrite (get_paging_params_rest _ _ _ _ Hpaging).
  apply paging_keys_kept. unfold paging_keys.
  rewrite !not_elem_of_cons. repeat split; (discriminate || apply not_elem_of_nil).
Qed.

(** A listing whose zone lookup, paging and filter extraction went
    through: the recordsets are queried without the data filter, and the
    records only when the data filter is a non-empty string. *)
Lemma get_all_queried (request : Request) (zone_id : string)
    (params rest criterion : gmap string string) (zone : Zone) (paging : Paging)
    (recordsets : list RecordSet) (s s1 s2 : S) :
  let context := environ_context request in
  let metadata := delete "data" (<["domain_id" := zone_id]> criterion) in
  let by_data :=
    <["data" := default "" (criterion !! "data")]> (<["domain_id" := zone_id]> ∅) in
  is_uuid_like zone_id = true ->
  get_domain api context zone_id s = (Ok zone, s1) ->
  get_paging_params params SORT_KEYS = Ok (paging, rest) ->
  _apply_filter_params rest ["name"; "type"; "ttl"; "data"] ∅ = Ok criterion ->
  find_recordsets api context metadata (marker paging) (limit paging)
    (sort_key paging) (sort_dir paging) s1 = (Ok recordsets, s2) ->
  run api (get_all request zone_id params) s =
    logged (GetDomain context zone_id)
      (logged (FindRecordsets context metadata (marker paging) (limit paging)
                 (sort_key paging) (sort_dir paging))
         (if truthy (criterion !! "data") then
            match find_records api context by_data s2 with
            | (Ok records, s3) =>
                {| outcome :=
                     Ok (render_list request
                           (keep_with_data (list_to_set (recordset_id <$> records))
                              recordsets));
                   final := s3;
                   trace := [FindRecords context by_data] |}
            | (Err e, s3) =>
                {| outcome := Err e; final := s3;
                   trace := [FindRecords context by_data] |}
            end
          else
            {| outcome := Ok (render_list request recordsets); final := s2;
               trace := [] |})).
Proof.
  intros context metadata by_data Hz Hzone Hpaging Hfilter Hfind.
  assert (Hdata : (<["domain_id" := zone_id]> criterion) !! "data"
                  = criterion !! "data").
  { now rewrite lookup_insert_ne by discriminate. }
  unfold RecordSetsController.get_all. rewrite validate_uuid_1 by exact Hz.
  fold context. step. rewrite Hzone. step. rewrite Hpaging. step.
  rewrite Hfilter. step. fold metadata. rewrite Hfind, Hdata. fold by_data.
  f_equal. f_equal.
  destruct (truthy (criterion !! "data")); step; [| reflexivity].
  destruct (find_records api context by_data s2) as [[records | e] s3];
    [| reflexivity].
  step. unfold logged. cbn [outcome final trace]. now rewrite (left_id_L ∅ (∪)).
Qed.

(** C1, as the controller has it: on a zone that exists, a listing whose
    [sort_key] is outside [SORT_KEYS] fails validation right after the
    zone lookup; that lookup is the only call made, no recordset and no
    record is queried. *)
Theorem list_bad_sort_key (request : Request) (zone_id : string)
    (params : gmap string string) (k : string) (zone : Zone) (s s1 : S) :
  is_uuid_like zone_id = true ->
  get_domain api (environ_context request) zone_id s = (Ok zone, s1) ->
  params !! "sort_key" = Some k ->
  k ∉ SORT_KEYS ->
  exists e,
    is_validation_error e = true /\
    run api (get_all request zone_id params) s =
      {| outcome := Err e; final := s1;
         trace := [GetDomain (environ_context request) zone_id] |}.
Proof.
  intros Hz Hzone Hk Hnot.
  destruct (get_paging_params_bad_key params SORT_KEYS k Hk Hnot) as (e & He & Hv).
  exists e. split; [exact Hv |].
  unfold RecordSetsController.get_all. rewrite validate_uuid_1 by exact Hz.
  step. rewrite Hzone. step. rewrite He. reflexivity.
Qed.

(** C2, as the controller has it: a listing whose criterion holds a
    non-empty data filter returns the recordsets of the primary query (the metadata filters,
    its order, its page) that own at least one of the records matching
    the data filter; when no record matches, the list is empty. *)
Theorem list_data_filter_intersection (request : Request) (zone_id d : string)
    (params rest criterion : gmap string string) (zone : Zone) (paging : Paging)
    (recordsets : list RecordSet) (records : list Record_) (s s1 s2 s3 : S) :
  let context := environ_context request in
  let metadata := delete "data" (<["domain_id" := zone_id]> criterion) in
  let by_data := <["data" := d]> (<["domain_id" := zone_id]> ∅) in
  is_uuid_like zone_id = true ->
  get_domain api context zone_id s = (Ok zone, s1) ->
  get_paging_params params SORT_KEYS = Ok (paging, rest) ->
  _apply_filter_params rest ["name"; "type"; "ttl"; "data"] ∅ = Ok criterion ->
  criterion !! "data" = Some d ->
  d <> "" ->
  find_recordsets api context metadata (marker paging) (limit paging)
    (sort_key paging) (sort_dir paging) s1 = (Ok recordsets, s2) ->
  find_records api context by_data s2 = (Ok records, s3) ->
  exists result,
    run api (get_all request zone_id params) s =
      {| outcome := Ok (render_list request result);
         final := s3;
         trace := [GetDomain context zone_id;
                   FindRecordsets context metadata (marker paging) (limit paging)
                     (sort_key paging) (sort_dir paging);
                   FindRecords context by_data] |}
    /\ result =
         filter (fun rs => rs_id rs ∈ (list_to_set (recordset_id <$> records) : gset string))
           recordsets
    /\ (forall rs, rs ∈ result <->
                   rs ∈ recordsets /\
                   exists r, r ∈ records /\ recordset_id r = rs_id rs)
    /\ result `sublist_of` recordsets
    /\ (records = [] -> result = []).
Proof.
  intros context metadata by_data Hz Hzone Hpaging Hfilter Hd Hne Hfind Hrec.
  subst context metadata by_data. eexists. split; [| split; [reflexivity | split; [| split]]].
  - rewrite (get_all_queried _ _ _ _ _ _ _ _ _ _ _ Hz Hzone Hpaging Hfilter Hfind).
    rewrite Hd. cbn [truthy from_option id].
    apply String.eqb_neq in Hne. rewrite Hne. cbn [negb].
    rewrite Hrec. rewrite keep_with_data_filter. reflexivity.
  - intros rs. rewrite list_elem_of_filter, elem_of_list_to_set, list_elem_of_fmap.
    split.
    + intros [(r & Hid & Hr) Hin]. eauto.
    + intros [Hin (r & Hr & Hid)]. eauto.
  - apply sublist_filter.
  - intros ->. clear Hfind. induction recordsets as [| rs l IH]; [reflexivity |].
    rewrite filter_cons. rewrite decide_False; [exact IH |].
    cbn. apply not_elem_of_empty.
Qed.

(** C9: a listing whose data filter is the empty string skips the join:
    the records are not queried, and the answer is the whole result of the
    recordset query on the remaining filters. *)
Theorem list_empty_data_filter (request : Request) (zone_id : string)
    (params rest criterion : gmap string string) (zone : Zone) (paging : Paging)
    (recordsets : list RecordSet) (s s1 s2 : S) :
  let context := environ_context request in
  let metadata := delete "data" (<["domain_id" := zone_id]> criterion) in
  is_uuid_like zone_id = true ->
  get_domain api context zone_id s = (Ok zone, s1) ->
  get_paging_params params SORT_KEYS = Ok (paging, rest) ->
  _apply_filter_params rest ["name"; "type"; "ttl"; "data"] ∅ = Ok criterion ->
  params !! "data" = Some "" ->
  find_recordsets api context metadata (marker paging) (limit paging)
    (sort_key paging) (sort_dir paging) s1 = (Ok recordsets, s2) ->
  run api (get_all request zone_id params) s =
    {| outcome := Ok (render_list request recordsets);
       final := s2;
       trace := [GetDomain context zone_id;
                 FindRecordsets context metadata (marker paging) (limit paging)
                   (sort_key paging) (sort_dir paging)] |}.
Proof.
  intros context metadata Hz Hzone Hpaging Hfilter Hd Hfind.
  rewrite (get_all_queried _ _ _ _ _ _ _ _ _ _ _ Hz Hzone Hpaging Hfilter Hfind).
  now rewrite (criterion_data _ _ _ _ Hpaging Hfilter), Hd.
Qed.

(** C8: a listing looks the zone up before anything else. Its first call,
    if it makes one, is the zone lookup; a recordset or record query
    appears in the trace only when that lookup succeeded; and when the
    lookup fails, the listing fails with the same error (never an empty
    list) without any query. *)
Theorem list_zone_checked_first (request : Request) (zone_id : string)
    (params : gmap string string) (s : S) :
  let context := environ_context request in
  let r := run api (get_all request zone_id params) s in
  (trace r = [] \/ exists tl, trace r = GetDomain context zone_id :: tl)
  /\ (forall c, c ∈ trace r -> is_query c = true ->
      exists zone s1, get_domain api context zone_id s = (Ok zone, s1))
  /\ (forall e s1, get_domain api context zone_id s = (Err e, s1) ->
      (exists e', outcome r = Err e') /\
      (forall c, c ∈ trace r -> is_query c = false) /\
      (is_uuid_like zone_id = true ->
       r = {| outcome := Err e; final := s1;
              trace := [GetDomain context zone_id] |})).
Proof.
  intros context r. subst r. unfold RecordSetsController.get_all, utils.validate_uuid.
  cbn [List.find snd fst]. destruct (is_uuid_like zone_id); cbn [negb].
  - fold context. step.
    destruct (get_domain api context zone_id s) as [[zone | e] s1] eqn:Hzone.
    + split; [| split].
      * right. cbn [logged trace]. eauto.
      * eauto.
      * intros e s1' [=].
    + cbn [outcome trace]. split; [| split].
      * right. eauto.
      * intros c ->%list_elem_of_singleton [=].
      * intros e' s1' [= <- <-]. split; [eauto | split].
        -- intros c ->%list_elem_of_singleton. reflexivity.
        -- reflexivity.
  - cbn [run outcome trace]. split; [| split].
    + now left.
    + intros c Hc. now apply elem_of_nil in Hc.
    + intros e s1 _. split; [eauto | split].
      * intros c Hc. now apply elem_of_nil in Hc.
      * discriminate.
Qed.

(** *** Further properties of the five operations *)

Local Abbreviation get_one := (RecordSetsController.get_one is_uuid_like render).

(** X1: fetching one recordset makes at most one call, the fetch itself;
    what it returns is the rendering of the recordset fetched, and an
    error of the fetch is the error of the operation. *)
Theorem get_one_fetch_only (request : Request) (zone_id recordset_id : string) (s : S) :
  let context := environ_context request in
  let r := run api (get_one request zone_id recordset_id) s in
  Forall (fun c => c = GetRecordset context zone_id recordset_id) (trace r)
  /\ (length (trace r) <= 1)%nat
  /\ match outcome r with
     | Ok body =>
         exists recordset,
           get_recordset api context zone_id recordset_id s = (Ok recordset, final r)
           /\ body = render request recordset
     | Err e =>
         (trace r = [] /\ exists n a, e = InvalidUUID n a)
         \/ get_recordset api context zone_id recordset_id s = (Err e, final r)
     end.
Proof.
  intros context r. subst r.
  unfold RecordSetsController.get_one, utils.validate_uuid. cbn [List.find fst snd].
  destruct (is_uuid_like zone_id); cbn [negb].
  2: { cbn. repeat split; [constructor | lia | left; eauto]. }
  destruct (is_uuid_like recordset_id); cbn [negb].
  2: { cbn. repeat split; [constructor | lia | left; eauto]. }
  fold context. step.
  destruct (get_recordset api context zone_id recordset_id s) as [[recordset | e] s1];
    cbn.
  - repeat split; [repeat constructor | lia | eauto].
  - repeat split; [repeat constructor | lia | now right].
Qed.

(** X2: an update that succeeds answers 202 when the recordset returned by
    the central service has status PENDING and 200 otherwise, leaves the
    headers alone, and returns the rendering of that recordset; what it
    sent was the body laid over the stored recordset, validated. *)
Theorem update_status_and_body (request : Request) (response resp : Response)
    (zone_id recordset_id : string) (body : json) (s : S) :
  let context := environ_context request in
  let r := run api (put_one request response zone_id recordset_id) s in
  outcome r = Ok (resp, body) ->
  exists fetched merged updated s1 s2,
    get_recordset api context zone_id recordset_id s = (Ok fetched, s1) /\
    parse (body_dict request) fetched = Ok merged /\
    validate merged = Ok tt /\
    update_recordset api context merged s2 = (Ok updated, final r) /\
    body = render request updated /\
    status_int resp =
      (if String.eqb (rs_status updated) "PENDING" then 202 else 200) /\
    headers resp = headers response.
Proof.
  intros context r. subst r.
  unfold RecordSetsController.put_one, utils.validate_uuid. cbn [List.find fst snd].
  destruct (is_uuid_like zone_id); cbn [negb]; [| discriminate].
  destruct (is_uuid_like recordset_id); cbn [negb]; [| discriminate].
  fold context. step.
  destruct (get_recordset api context zone_id recordset_id s)
    as [[fetched | e] s1] eqn:Hget; [| discriminate].
  step. destruct (rs_managed fetched && negb _); [discriminate |].
  destruct (String.eqb (rs_type fetched) "SOA"); [discriminate |].
  unfold logged. cbn [outcome final]. rewrite run_bind.
  destruct (outcome (run api _ s1)) as [[] | e]; [| discriminate].
  cbn zeta. cbn [outcome final].
  set (s2 := final (run api _ s1)). step.
  destruct (parse (body_dict request) fetched) as [merged | e] eqn:Hparse; step;
    [| discriminate].
  destruct (validate merged) as [[] | e] eqn:Hval; step; [| discriminate].
  destruct (update_recordset api context merged s2) as [[updated | e] s3] eqn:Hupd;
    [| discriminate].
  cbn. intros [= <- <-]. exists fetched, merged, updated, s1, s2.
  repeat split; try assumption;
    now destruct (String.eqb (rs_status updated) "PENDING").
Qed.

(** X3: whatever else happens in an update, the only change it asks of
    the central service is one [update_recordset], and only with the body
    laid over the stored recordset and validated, after the managed and
    SOA checks on the stored recordset have passed. *)
Theorem update_sends_validated_merge (request : Request) (response : Response)
    (zone_id recordset_id : string) (s : S) :
  let context := environ_context request in
  let r := run api (put_one request response zone_id recordset_id) s in
  Forall (fun c =>
            is_mutation c = true ->
            exists fetched s1 merged,
              get_recordset api context zone_id recordset_id s = (Ok fetched, s1) /\
              rs_managed fetched && negb (edit_managed_records context) = false /\
              rs_type fetched <> "SOA" /\
              parse (body_dict request) fetched = Ok merged /\
              validate merged = Ok tt /\
              c = UpdateRecordset context merged)
         (trace r).
Proof.
  intros context r. subst r.
  unfold RecordSetsController.put_one, utils.validate_uuid. cbn [List.find fst snd].
  destruct (is_uuid_like zone_id); cbn [negb]; [| apply Forall_nil_2].
  destruct (is_uuid_like recordset_id); cbn [negb]; [| apply Forall_nil_2].
  fold context. step.
  destruct (get_recordset api context zone_id recordset_id s)
    as [[fetched | e] s1] eqn:Hget; [| each_call].
  step. destruct (rs_managed fetched && negb _) eqn:Hm; [each_call |].
  destruct (String.eqb (rs_type fetched) "SOA") eqn:Hsoa; [each_call |].
  apply String.eqb_neq in Hsoa.
  assert (Hrest : forall s2,
    Forall (fun c =>
              is_mutation c = true ->
              exists fetched0 s0 merged,
                (Ok fetched, s1) = (Ok fetched0, s0) /\
                rs_managed fetched0 && negb (edit_managed_records context) = false /\
                rs_type fetched0 <> "SOA" /\
                parse (body_dict request) fetched0 = Ok merged /\
                validate merged = Ok tt /\
                c = UpdateRecordset context merged)
      (trace (run api
         (recordset ← lift (parse (body_dict request) fetched);
          _ ← lift (validate recordset);
          recordset ← central_api (UpdateRecordset context recordset);
          Ret (if String.eqb (rs_status recordset) "PENDING"
               then set_status_int 202 response
               else set_status_int 200 response, render request recordset)) s2))).
  { intros s2.
    destruct (parse (body_dict request) fetched) as [merged | e] eqn:Hparse; step;
      [| each_call].
    destruct (validate merged) as [[] | e] eqn:Hval; step; [| each_call].
    destruct (update_recordset api context merged s2) as [[updated | e] s3];
      each_call; intros _; exists fetched, s1, merged; repeat split; assumption. }
  unfold logged. cbn [trace]. apply Forall_cons_2; [intros [=] |].
  rewrite run_bind.
  destruct (String.eqb (rs_type fetched) "NS"); step.
  - destruct (get_domain api context zone_id s1) as [[zone | e] s2]; [| each_call].
    step. destruct (String.eqb (rs_name fetched) (zone_name zone)); [each_call |].
    cbn [outcome final trace logged]. cbn zeta. cbn [trace].
    apply Forall_app_2; [each_call | apply Hrest].
  - cbn zeta. cbn [trace app]. apply Hrest.
Qed.


(** X5: when the zone lookup of the root NS check fails, the update fails
    with the error of the lookup and nothing is persisted. *)
Theorem update_ns_zone_lookup_failed (request : Request) (response : Response)
    (zone_id recordset_id : string) (recordset : RecordSet) (e : exn) (s s1 s2 : S) :
  let context := environ_context request in
  is_uuid_like zone_id = true ->
  is_uuid_like recordset_id = true ->
  get_recordset api context zone_id recordset_id s = (Ok recordset, s1) ->
  rs_managed recordset && negb (edit_managed_records context) = false ->
  rs_type recordset = "NS" ->
  get_domain api context zone_id s1 = (Err e, s2) ->
  run api (put_one request response zone_id recordset_id) s =
    {| outcome := Err e; final := s2;
       trace := [GetRecordset context zone_id recordset_id;
                 GetDomain context zone_id] |}.
Proof.
  intros context Hz Hr Hget Hm Ht Hzone.
  unfold RecordSetsController.put_one. rewrite validate_uuid_2 by assumption.
  fold context. step. rewrite Hget. step. rewrite Hm, Ht. cbn [String.eqb Ascii.eqb Bool.eqb].
  step. rewrite Hzone. reflexivity.
Qed.


(** X7: a delete that succeeds answers 202 whatever status the central
    service reports, leaves the headers alone and returns the rendering
    of the recordset the service answered with; the stored recordset was
    fetched first and is not of type SOA. *)
Theorem delete_always_accepted (request : Request) (response resp : Response)
    (zone_id recordset_id : string) (body : json) (s : S) :
  let context := environ_context request in
  let r := run api (delete_one request response zone_id recordset_id) s in
  outcome r = Ok (resp, body) ->
  status_int resp = 202 /\
  headers resp = headers response /\
  exists fetched deleted s1,
    get_recordset api context zone_id recordset_id s = (Ok fetched, s1) /\
    rs_type fetched <> "SOA" /\
    delete_recordset api context zone_id recordset_id s1 = (Ok deleted, final r) /\
    body = render request deleted /\
    trace r = [GetRecordset context zone_id recordset_id;
               DeleteRecordset context zone_id recordset_id].
Proof.
  intros context r. subst r.
  unfold RecordSetsController.delete_one, utils.validate_uuid. cbn [List.find fst snd].
  destruct (is_uuid_like zone_id); cbn [negb]; [| discriminate].
  destruct (is_uuid_like recordset_id); cbn [negb]; [| discriminate].
  fold context. step.
  destruct (get_recordset api context zone_id recordset_id s)
    as [[fetched | e] s1] eqn:Hget; [| discriminate].
  step. destruct (String.eqb (rs_type fetched) "SOA") eqn:Hsoa; [discriminate |].
  apply String.eqb_neq in Hsoa. step.
  destruct (delete_recordset api context zone_id recordset_id s1)
    as [[deleted | e] s2] eqn:Hdel; [| discriminate].
  cbn. intros [= <- <-]. repeat split.
  exists fetched, deleted, s1. repeat split; assumption.
Qed.

(** X8: a delete does not look at the managed flag nor at the caller's
    capability: any stored recordset that is not of type SOA, managed or
    not, the root NS set included, is handed to [delete_recordset]. *)
Theorem delete_ignores_managed (request : Request) (response : Response)
    (zone_id recordset_id : string) (recordset deleted : RecordSet) (s s1 s2 : S) :
  let context := environ_context request in
  is_uuid_like zone_id = true ->
  is_uuid_like recordset_id = true ->
  get_recordset api context zone_id recordset_id s = (Ok recordset, s1) ->
  rs_type recordset <> "SOA" ->
  delete_recordset api context zone_id recordset_id s1 = (Ok deleted, s2) ->
  run api (delete_one request response zone_id recordset_id) s =
    {| outcome := Ok (set_status_int 202 response, render request deleted);
       final := s2;
       trace := [GetRecordset context zone_id recordset_id;
                 DeleteRecordset context zone_id recordset_id] |}.
Proof.
  intros context Hz Hr Hget Hsoa Hdel.
  unfold RecordSetsController.delete_one. rewrite validate_uuid_2 by assumption.
  apply String.eqb_neq in Hsoa.
  fold context. step. rewrite Hget. step. rewrite Hsoa. step. rewrite Hdel.
  reflexivity.
Qed.

(** X9: the only change a delete asks of the central service is the
    [delete_recordset] of the very recordset named in the request, and
    only once that recordset was fetched and found not to be of type
    SOA; when the fetch fails nothing is deleted. *)
Theorem delete_only_after_fetch (request : Request) (response : Response)
    (zone_id recordset_id : string) (s : S) :
  let context := environ_context request in
  let r := run api (delete_one request response zone_id recordset_id) s in
  Forall (fun c =>
            is_mutation c = true ->
            c = DeleteRecordset context zone_id recordset_id /\
            exists fetched s1,
              get_recordset api context zone_id recordset_id s = (Ok fetched, s1) /\
              rs_type fetched <> "SOA")
         (trace r).
Proof.
  intros context r. subst r.
  unfold RecordSetsController.delete_one, utils.validate_uuid. cbn [List.find fst snd].
  destruct (is_uuid_like zone_id); cbn [negb]; [| apply Forall_nil_2].
  destruct (is_uuid_like recordset_id); cbn [negb]; [| apply Forall_nil_2].
  fold context. step.
  destruct (get_recordset api context zone_id recordset_id s)
    as [[fetched | e] s1] eqn:Hget; [| each_call].
  step. destruct (String.eqb (rs_type fetched) "SOA") eqn:Hsoa; [each_call |].
  apply String.eqb_neq in Hsoa. step.
  destruct (delete_recordset api context zone_id recordset_id s1)
    as [[deleted | e] s2]; each_call; intros _; eauto.
Qed.

(** X10: a create makes at most one call, [create_recordset], in the zone
    named in the request and with the recordset parsed from the body,
    validated and not of type SOA; it never looks the zone up itself. *)
Theorem create_sends_validated (request : Request) (response : Response)
    (zone_id : string) (s : S) :
  let context := environ_context request in
  let r := run api (post_all request response zone_id) s in
  (length (trace r) <= 1)%nat /\
  Forall (fun c =>
            exists recordset,
              c = CreateRecordset context zone_id recordset /\
              parse (body_dict request) RecordSet_new = Ok recordset /\
              validate recordset = Ok tt /\
              rs_type recordset <> "SOA")
         (trace r).
Proof.
  intros context r. subst r.
  unfold RecordSetsController.post_all, utils.validate_uuid. cbn [List.find fst snd].
  destruct (is_uuid_like zone_id); cbn [negb]; [| cbn; split; [lia | constructor]].
  fold context. step.
  destruct (parse (body_dict request) RecordSet_new) as [recordset | e] eqn:Hparse;
    step; [| cbn; split; [lia | constructor]].
  destruct (validate recordset) as [[] | e] eqn:Hval; step;
    [| cbn; split; [lia | constructor]].
  destruct (String.eqb (rs_type recordset) "SOA") eqn:Hsoa;
    [cbn; split; [lia | constructor] |].
  apply String.eqb_neq in Hsoa. step.
  destruct (create_recordset api context zone_id recordset s) as [[created | e] s1].
  - step. destruct (getitem "links" (render request created)) as [links | e]; step.
    + destruct (getitem "self" links) as [self | e]; cbn;
        (split; [lia | each_call; eauto]).
    + cbn. split; [lia | each_call; eauto].
  - cbn. split; [lia | each_call; eauto].
Qed.

(** X11: every query of a listing is tied to the zone of the request. The
    recordset query carries [domain_id] set to that zone and never a
    [data] entry; the record query, made only for a non-empty data filter,
    carries that data and the zone and nothing else. *)
Theorem list_queries_scoped_to_zone (request : Request) (zone_id : string)
    (params : gmap string string) (s : S) :
  let r := run api (get_all request zone_id params) s in
  Forall (fun c =>
            match c with
            | FindRecordsets _ criterion _ _ _ _ =>
                criterion !! "domain_id" = Some zone_id /\ criterion !! "data" = None
            | FindRecords _ criterion =>
                exists d, d <> "" /\
                  criterion = <["data" := d]> (<["domain_id" := zone_id]> ∅)
            | _ => True
            end)
         (trace r).
Proof.
  intros r. subst r.
  unfold RecordSetsController.get_all, utils.validate_uuid. cbn [List.find fst snd].
  destruct (is_uuid_like zone_id); cbn [negb]; [| apply Forall_nil_2].
  step.
  destruct (get_domain api _ zone_id s) as [[zone | e] s1]; [| each_call; exact I].
  step.
  destruct (utils.get_paging_params _ _ params _) as [[paging rest] | e]; step;
    [| each_call; exact I].
  destruct (rest._apply_filter_params rest _ ∅) as [criterion | e]; step;
    [| each_call; exact I].
  assert (Hscope :
    delete "data" (<["domain_id" := zone_id]> criterion) !! "domain_id" = Some zone_id
    /\ delete "data" (<["domain_id" := zone_id]> criterion) !! "data" = None).
  { split.
    - rewrite lookup_delete_ne by discriminate. apply lookup_insert_eq.
    - apply lookup_delete_eq. }
  destruct (find_recordsets api _ _ _ _ _ _ s1) as [[recordsets | e] s2];
    [| each_call; [exact I | exact Hscope]].
  step.
  destruct (<["domain_id" := zone_id]> criterion !! "data") as [d |] eqn:Hd;
    cbn [truthy].
  2: { step. each_call; [exact I | exact Hscope]. }
  destruct (String.eqb d "") eqn:Hne; cbn [negb].
  { step. each_call; [exact I | exact Hscope]. }
  apply String.eqb_neq in Hne. step.
  destruct (find_records api _ _ s2) as [[records | e] s3]; step;
    (each_call; [exact I | exact Hscope | now exists d]).
Qed.

(** X12: a listing without a data filter asks for the zone and for the
    recordsets and returns the whole answer of the recordset query; the
    records are not queried. *)
Theorem list_without_data_filter (request : Request) (zone_id : string)
    (params rest criterion : gmap string string) (zone : Zone) (paging : Paging)
    (recordsets : list RecordSet) (s s1 s2 : S) :
  let context := environ_context request in
  let metadata := delete "data" (<["domain_id" := zone_id]> criterion) in
  is_uuid_like zone_id = true ->
  get_domain api context zone_id s = (Ok zone, s1) ->
  get_paging_params params SORT_KEYS = Ok (paging, rest) ->
  _apply_filter_params rest ["name"; "type"; "ttl"; "data"] ∅ = Ok criterion ->
  criterion !! "data" = None ->
  find_recordsets api context metadata (marker paging) (limit paging)
    (sort_key paging) (sort_dir paging) s1 = (Ok recordsets, s2) ->
  run api (get_all request zone_id params) s =
    {| outcome := Ok (render_list request recordsets);
       final := s2;
       trace := [GetDomain context zone_id;
                 FindRecordsets context metadata (marker paging) (limit paging)
                   (sort_key paging) (sort_dir paging)] |}.
Proof.
  intros context metadata Hz Hzone Hpaging Hfilter Hd Hfind.
  rewrite (get_all_queried _ _ _ _ _ _ _ _ _ _ _ Hz Hzone Hpaging Hfilter Hfind).
  now rewrite Hd.
Qed.

(** X13: a listing only reads: none of its calls, at most three, asks the
    central service for a change. *)
Theorem list_never_mutates (request : Request) (zone_id : string)
    (params : gmap string string) (s : S) :
  let r := run api (get_all request zone_id params) s in
  (length (trace r) <= 3)%nat /\
  Forall (fun c => is_mutation c = false) (trace r).
Proof.
  intros r. subst r.
  unfold RecordSetsController.get_all, utils.validate_uuid. cbn [List.find fst snd].
  destruct (is_uuid_like zone_id); cbn [negb]; [| cbn; split; [lia | constructor]].
  step.
  destruct (get_domain api _ zone_id s) as [[zone | e] s1];
    [| cbn; split; [lia | repeat constructor]].
  step.
  destruct (utils.get_paging_params _ _ params _) as [[paging rest] | e]; step;
    [| cbn; split; [lia | repeat constructor]].
  destruct (rest._apply_filter_params rest _ ∅) as [criterion | e]; step;
    [| cbn; split; [lia | repeat constructor]].
  destruct (find_recordsets api _ _ _ _ _ _ s1) as [[recordsets | e] s2];
    [| cbn; split; [lia | repeat constructor]].
  step.
  destruct (truthy _); step.
  - destruct (find_records api _ _ s2) as [[records | e] s3]; step;
      (cbn; split; [lia | repeat constructor]).
  - cbn. split; [lia | repeat constructor].
Qed.

(** X14: a failing query fails the listing with the same error. When the
    recordset query fails the records are not queried, even with a data
    filter; when the record query fails the recordsets already fetched
    are not returned. *)
Theorem list_query_failure (request : Request) (zone_id : string)
    (params rest criterion : gmap string string) (zone : Zone) (paging : Paging)
    (s s1 : S) :
  let context := environ_context request in
  let metadata := delete "data" (<["domain_id" := zone_id]> criterion) in
  let recordset_query :=
    FindRecordsets context metadata (marker paging) (limit paging)
      (sort_key paging) (sort_dir paging) in
  is_uuid_like zone_id = true ->
  get_domain api context zone_id s = (Ok zone, s1) ->
  get_paging_params params SORT_KEYS = Ok (paging, rest) ->
  _apply_filter_params rest ["name"; "type"; "ttl"; "data"] ∅ = Ok criterion ->
  let r := run api (get_all request zone_id params) s in
  (forall e s2,
     dispatch api recordset_query s1 = (Err e, s2) ->
     r = {| outcome := Err e; final := s2;
            trace := [GetDomain context zone_id; recordset_query] |})
  /\ (forall recordsets d e s2 s3,
       dispatch api recordset_query s1 = (Ok recordsets, s2) ->
       criterion !! "data" = Some d ->
       d <> "" ->
       find_records api context (<["data" := d]> (<["domain_id" := zone_id]> ∅)) s2
         = (Err e, s3) ->
       r = {| outcome := Err e; final := s3;
              trace := [GetDomain context zone_id; recordset_query;
                        FindRecords context
                          (<["data" := d]> (<["domain_id" := zone_id]> ∅))] |}).
Proof.
  intros context metadata recordset_query Hz Hzone Hpaging Hfilter r. subst r.
  split.
  - intros e s2 Hfind.
    unfold RecordSetsController.get_all. rewrite validate_uuid_1 by exact Hz.
    fold context. step. rewrite Hzone. step. rewrite Hpaging. step.
    rewrite Hfilter. step. fold metadata.
    change (find_recordsets api context metadata (marker paging) (limit paging)
              (sort_key paging) (sort_dir paging) s1)
      with (dispatch api recordset_query s1).
    rewrite Hfind. reflexivity.
  - intros recordsets d e s2 s3 Hfind Hd Hne Hrec.
    rewrite (get_all_queried _ _ _ _ _ _ _ _ _ _ _ Hz Hzone Hpaging Hfilter Hfind).
    rewrite Hd. cbn [truthy from_option id].
    apply String.eqb_neq in Hne. rewrite Hne. cbn [negb].
    fold context. rewrite Hrec. reflexivity.
Qed.

End Properties.

(** ** Runs on the sample data *)

Module Samples.
Import InMemory.

Definition no_body : json := JNull.

Definition ttl_body : json := JDict [("ttl", JInt 600)].

Definition soa_body : json :=
  JDict [("name", JStr "example.com."); ("type", JStr "SOA"); ("ttl", JInt 3600);
         ("records", JList [JStr "ns1.example.com. admin.example.com. 2 3600 600 86400 3600"])].

Definition a_body : json :=
  JDict [("name", JStr "a.example.com."); ("type", JStr "A"); ("ttl", JInt 300);
         ("records", JList [JStr "1.2.3.4"])].

(** What the service answers to the create of [a_body] in zone [Z1]. *)
Definition created_set : RecordSet :=
  {| rs_id := R_NEW; rs_domain_id := Z1; rs_name := "a.example.com.";
     rs_type := "A"; rs_ttl := Some 300; rs_records := ["1.2.3.4"];
     rs_managed := false; rs_status := "PENDING" |}.

(** A recordset with [ttl_body] laid over it. *)
Definition parse_ttl (rs : RecordSet) : RecordSet :=
  {| rs_id := rs_id rs; rs_domain_id := rs_domain_id rs; rs_name := rs_name rs;
     rs_type := rs_type rs; rs_ttl := Some 600; rs_records := rs_records rs;
     rs_managed := rs_managed rs; rs_status := rs_status rs |}.

Definition accepted : Response :=
  {| status_int := 202;
     headers := {[ "Location" := JStr (self_link created_set) ]} |}.

Definition Z_GONE : string := "99999999-9999-9999-9999-999999999999".

(** The paging of a request that gives none. *)
Definition first_page : Paging :=
  {| marker := None; limit := 20; sort_key := None; sort_dir := "asc" |}.

(** Against C1 as worded: the listing of [Z1] with an unknown sort key has
    asked the service for the zone by the time it fails; on a zone that
    does not exist the same request fails with NotFound, not with a
    validation error. *)
Lemma list_bad_sort_key_after_zone_lookup :
  run pending (get_all (req user no_body) Z1 {[ "sort_key" := "bogus" ]}) store
    = {| outcome := Err (InvalidSortKey "bogus"); final := store;
         trace := [GetDomain user Z1] |}
  /\ run pending (get_all (req user no_body) Z_GONE {[ "sort_key" := "bogus" ]}) store
    = {| outcome := Err (NotFound "domain_not_found"); final := store;
         trace := [GetDomain user Z_GONE] |}.
Proof. split; vm_compute; reflexivity. Qed.

Lemma list_bad_sort_key_witness :
  exists e,
    is_validation_error e = true /\
    run pending (get_all (req user no_body) Z1 {[ "sort_key" := "bogus" ]}) store
      = {| outcome := Err e; final := store; trace := [GetDomain user Z1] |}.
Proof.
  apply (list_bad_sort_key pending uuid_like 20%N 1000%N render_list
           (req user no_body) Z1 {[ "sort_key" := "bogus" ]} "bogus"
           example_com store store).
  - reflexivity.
  - reflexivity.
  - reflexivity.
  - apply (bool_decide_unpack _). vm_compute. exact I.
Defined.

(** Against C2 as worded: with the data filter given as the empty string,
    no record matches it, yet the listing returns every recordset of the
    zone. *)
Lemma list_empty_data_filter_not_intersected :
  outcome (run pending (get_all (req user no_body) Z1 {[ "data" := "" ]}) store)
    = Ok (render_list (req user no_body) [soa_set; ns_set; a_set; mx_set])
  /\ find_records pending user
       (<["data" := ""]> (<["domain_id" := Z1]> ∅)) store = (Ok [], store).
Proof. split; vm_compute; reflexivity. Qed.

Lemma list_data_filter_intersection_witness :
  exists result,
    outcome (run pending
               (get_all (req user no_body) Z1 {[ "data" := "1.2.3.4" ]}) store)
      = Ok (render_list (req user no_body) result)
    /\ result = [a_set].
Proof.
  edestruct (list_data_filter_intersection pending uuid_like 20%N 1000%N render_list
               (req user no_body) Z1 "1.2.3.4" {[ "data" := "1.2.3.4" ]}
               {[ "data" := "1.2.3.4" ]} {[ "data" := "1.2.3.4" ]} example_com
               first_page [soa_set; ns_set; a_set; mx_set] [a_record]
               store store store store)
    as (result & Hrun & Hres & _).
  - reflexivity.
  - reflexivity.
  - vm_compute. reflexivity.
  - vm_compute. reflexivity.
  - reflexivity.
  - discriminate.
  - vm_compute. reflexivity.
  - vm_compute. reflexivity.
  - exists result. split.
    + exact (f_equal outcome Hrun).
    + rewrite Hres. vm_compute. reflexivity.
Defined.

Lemma list_empty_data_filter_witness :
  run pending (get_all (req user no_body) Z1 {[ "data" := "" ]}) store
    = {| outcome := Ok (render_list (req user no_body)
                          [soa_set; ns_set; a_set; mx_set]);
         final := store;
         trace := [GetDomain user Z1;
                   FindRecordsets user {[ "domain_id" := Z1 ]} None 20%N None "asc"] |}.
Proof.
  etransitivity.
  - apply (list_empty_data_filter pending uuid_like 20%N 1000%N render_list
             (req user no_body) Z1 {[ "data" := "" ]} {[ "data" := "" ]}
             {[ "data" := "" ]} example_com first_page
             [soa_set; ns_set; a_set; mx_set] store store store);
      vm_compute; reflexivity.
  - vm_compute. reflexivity.
Defined.

Lemma create_soa_rejected_witness :
  run pending (post_all (req user soa_body) response0 Z1) store
    = {| outcome := Err (BadRequest "Creating a SOA recordset is not allowed");
         final := store; trace := [] |}.
Proof.
  eapply (create_soa_rejected pending uuid_like parse validate render
            (req user soa_body) response0 Z1); reflexivity.
Defined.

Lemma delete_soa_rejected_witness :
  run pending (delete_one (req admin no_body) response0 Z1 R_SOA) store
    = {| outcome := Err (BadRequest "Deleting a SOA recordset is not allowed");
         final := store; trace := [GetRecordset admin Z1 R_SOA] |}.
Proof.
  apply (delete_soa_rejected pending uuid_like render (req admin no_body)
           response0 Z1 R_SOA soa_set store store); reflexivity.
Defined.

Lemma update_root_ns_rejected_witness :
  exists msg,
    outcome (run pending (put_one (req user ttl_body) response0 Z1 R_NS) store)
      = Err (BadRequest msg).
Proof.
  destruct (update_root_ns_rejected pending uuid_like parse validate render
              (req user ttl_body) response0 Z1 R_NS ns_set store store
              eq_refl eq_refl eq_refl) as [Hns _].
  destruct (Hns eq_refl example_com store eq_refl eq_refl) as [Hmsg _].
  exact Hmsg.
Defined.

Lemma update_managed_guard_witness :
  outcome (run pending (put_one (req user ttl_body) response0 Z1 R_MX) store)
    = Err (BadRequest "Managed records may not be updated")
  /\ exists body,
       outcome (run pending (put_one (req admin ttl_body) response0 Z1 R_MX) store)
         = Ok ({| status_int := 202; headers := ∅ |}, body).
Proof.
  split.
  - destruct (update_managed_guard pending uuid_like parse validate render
                (req user ttl_body) response0 Z1 R_MX mx_set store store
                eq_refl eq_refl eq_refl eq_refl) as [Hdenied _].
    exact (f_equal outcome (Hdenied eq_refl)).
  - destruct (update_managed_guard pending uuid_like parse validate render
                (req admin ttl_body) response0 Z1 R_MX mx_set store store
                eq_refl eq_refl eq_refl eq_refl) as [_ Hgranted].
    destruct (Hgranted eq_refl) as (_ & _ & Hpersist).
    eexists.
    refine (f_equal outcome
              (Hpersist _ _ (parse_ttl mx_set)
                 (with_status "PENDING" (parse_ttl mx_set)) _ eq_refl eq_refl eq_refl));
      discriminate.
Defined.

Lemma update_guard_order_witness :
  run pending (put_one (req user ttl_body) response0 Z1 R_SOA) store
    = {| outcome := Err (BadRequest "Managed records may not be updated");
         final := store; trace := [GetRecordset user Z1 R_SOA] |}.
Proof.
  destruct (update_guard_order pending uuid_like parse validate render
              (req user ttl_body) response0 Z1 R_SOA soa_set store store
              eq_refl eq_refl eq_refl) as [Hmanaged _].
  exact (Hmanaged eq_refl eq_refl).
Defined.

Lemma create_status_and_location_witness :
  exists recordset created s',
    parse a_body RecordSet_new = Ok recordset /\
    create_recordset pending user Z1 recordset store = (Ok created, s') /\
    render (req user a_body) created_set = render (req user a_body) created /\
    status_int accepted =
      (if String.eqb (rs_status created) "PENDING" then 202 else 201) /\
    exists links self,
      getitem "links" (render (req user a_body) created_set) = Ok links /\
      getitem "self" links = Ok self /\
      headers accepted !! "Location" = Some self.
Proof.
  apply (create_status_and_location pending uuid_like parse validate render
           (req user a_body) response0 accepted Z1
           (render (req user a_body) created_set) store).
  vm_compute. reflexivity.
Defined.

(** The same create against a service that completes at once: 201. *)
Example create_synchronous :
  outcome (run synchronous (post_all (req user a_body) response0 Z1) store)
    = Ok ({| status_int := 201;
             headers := {[ "Location" := JStr (self_link created_set) ]} |},
          render (req user a_body) (with_status "ACTIVE" created_set)).
Proof. vm_compute. reflexivity. Qed.

(** A delete answers 202 also when the service completes at once. *)
Example delete_synchronous :
  outcome (run synchronous (delete_one (req user no_body) response0 Z1 R_A) store)
    = Ok ({| status_int := 202; headers := ∅ |},
          render (req user no_body) a_set).
Proof. vm_compute. reflexivity. Qed.

(** *** More sample data *)




(** A root NS set left behind by a zone that is gone. *)
Definition orphaned : Store :=
  {| zones := []; recordsets := [ns_set]; records := [] |}.



(** The service with its record table out of reach. *)
Definition records_down : CentralAPI Store :=
  {| get_domain := get_domain pending;
     get_recordset := get_recordset pending;
     find_recordsets := find_recordsets pending;
     find_records := fun _ _ s => (Err (BackendFailure "records unavailable"), s);
     create_recordset := create_recordset pending;
     update_recordset := update_recordset pending;
     delete_recordset := delete_recordset pending |}.

Definition updated_a : RecordSet := with_status "PENDING" (parse_ttl a_set).

Lemma update_status_and_body_witness :
  exists fetched merged updated s1 s2,
    get_recordset pending admin Z1 R_A store = (Ok fetched, s1) /\
    parse ttl_body fetched = Ok merged /\
    validate merged = Ok tt /\
    update_recordset pending admin merged s2
      = (Ok updated,
         final (run pending (put_one (req admin ttl_body) response0 Z1 R_A) store)) /\
    render (req admin ttl_body) updated_a = render (req admin ttl_body) updated /\
    status_int {| status_int := 202; headers := ∅ |} =
      (if String.eqb (rs_status updated) "PENDING" then 202 else 200) /\
    headers {| status_int := 202; headers := ∅ |} = headers response0.
Proof.
  apply (update_status_and_body pending uuid_like parse validate render
           (req admin ttl_body) response0 {| status_int := 202; headers := ∅ |}
           Z1 R_A (render (req admin ttl_body) updated_a) store).
  vm_compute. reflexivity.
Defined.


Lemma update_ns_zone_lookup_failed_witness :
  run pending (put_one (req user ttl_body) response0 Z1 R_NS) orphaned
    = {| outcome := Err (NotFound "domain_not_found"); final := orphaned;
         trace := [GetRecordset user Z1 R_NS; GetDomain user Z1] |}.
Proof.
  apply (update_ns_zone_lookup_failed pending uuid_like parse validate render
           (req user ttl_body) response0 Z1 R_NS ns_set (NotFound "domain_not_found")
           orphaned orphaned orphaned); reflexivity.
Defined.


Lemma delete_always_accepted_witness :
  status_int {| status_int := 202; headers := ∅ |} = 202 /\
  headers {| status_int := 202; headers := ∅ |} = headers response0 /\
  exists fetched deleted s1,
    get_recordset synchronous user Z1 R_A store = (Ok fetched, s1) /\
    rs_type fetched <> "SOA" /\
    delete_recordset synchronous user Z1 R_A s1
      = (Ok deleted,
         final (run synchronous (delete_one (req user no_body) response0 Z1 R_A) store)) /\
    render (req user no_body) a_set = render (req user no_body) deleted /\
    trace (run synchronous (delete_one (req user no_body) response0 Z1 R_A) store)
      = [GetRecordset user Z1 R_A; DeleteRecordset user Z1 R_A].
Proof.
  apply (delete_always_accepted synchronous uuid_like render (req user no_body)
           response0 {| status_int := 202; headers := ∅ |} Z1 R_A
           (render (req user no_body) a_set) store).
  vm_compute. reflexivity.
Defined.

Lemma delete_ignores_managed_witness :
  run pending (delete_one (req user no_body) response0 Z1 R_MX) store
    = {| outcome := Ok ({| status_int := 202; headers := ∅ |},
                        render (req user no_body) (with_status "PENDING" mx_set));
         final := put_recordsets [soa_set; ns_set; a_set] store;
         trace := [GetRecordset user Z1 R_MX; DeleteRecordset user Z1 R_MX] |}.
Proof.
  apply (delete_ignores_managed pending uuid_like render (req user no_body)
           response0 Z1 R_MX mx_set (with_status "PENDING" mx_set) store store
           (put_recordsets [soa_set; ns_set; a_set] store));
    first [reflexivity | discriminate].
Defined.

Lemma list_without_data_filter_witness :
  run pending (get_all (req user no_body) Z1 {[ "type" := "NS" ]}) store
    = {| outcome := Ok (render_list (req user no_body) [ns_set]);
         final := store;
         trace := [GetDomain user Z1;
                   FindRecordsets user {[ "type" := "NS"; "domain_id" := Z1 ]}
                     None 20%N None "asc"] |}.
Proof.
  etransitivity.
  - apply (list_without_data_filter pending uuid_like 20%N 1000%N render_list
             (req user no_body) Z1 {[ "type" := "NS" ]} {[ "type" := "NS" ]}
             {[ "type" := "NS" ]} example_com first_page [ns_set] store store store);
      vm_compute; reflexivity.
  - vm_compute. reflexivity.
Defined.

Lemma list_query_failure_witness :
  run records_down (get_all (req user no_body) Z1 {[ "data" := "1.2.3.4" ]}) store
    = {| outcome := Err (BackendFailure "records unavailable");
         final := store;
         trace := [GetDomain user Z1;
                   FindRecordsets user {[ "domain_id" := Z1 ]} None 20%N None "asc";
                   FindRecords user {[ "data" := "1.2.3.4"; "domain_id" := Z1 ]}] |}.
Proof.
  destruct (list_query_failure records_down uuid_like 20%N 1000%N render_list
              (req user no_body) Z1 {[ "data" := "1.2.3.4" ]} {[ "data" := "1.2.3.4" ]}
              {[ "data" := "1.2.3.4" ]} example_com first_page store store)
    as [_ Hrecords]; [vm_compute; reflexivity .. |].
  etransitivity.
  - apply (Hrecords [soa_set; ns_set; a_set; mx_set] "1.2.3.4"
             (BackendFailure "records unavailable") store store);
      first [discriminate | vm_compute; reflexivity].
  - vm_compute. reflexivity.
Defined.

End Samples.
